(** * server.py: a static file server that adds a charset to text responses

    The repository is one script.  [CustomHandler] subclasses
    [http.server.SimpleHTTPRequestHandler] and overrides [send_header]; the
    module body binds a [socketserver.TCPServer] on [PORT], prints one line and
    serves forever.

    Header text is modelled as [string]: a sequence of 8-bit characters read as
    the code points U+0000..U+00FF, the range an HTTP header line can carry
    (the base class encodes every header line as latin-1, strictly). *)

From Stdlib Require Import Bool List NArith ZArith Lia.
From Stdlib Require Import Ascii String DecimalString.
Import ListNotations.

Local Open Scope string_scope.
Local Open Scope bool_scope.

(** ** The [str] operations the script uses *)

Module PyStr.

(** [c.lower()] for one character of the latin-1 range: [A]..[Z] and the
    accented capitals U+00C0..U+00DE (without the multiplication sign U+00D7)
    move up by 32; everything else is left alone.  No other character
    lower-cases to a letter of [content-type], inside this range or outside
    it. *)
Definition lower_char (c : ascii) : ascii :=
  let n := N_of_ascii c in
  if ((65 <=? n) && (n <=? 90))%N
     || ((192 <=? n) && (n <=? 222) && negb (n =? 215))%N
  then ascii_of_N (n + 32)
  else c.

(** [s.lower()] *)
Fixpoint lower (s : string) : string :=
  match s with
  | EmptyString => EmptyString
  | String c s' => String (lower_char c) (lower s')
  end.

(** ASCII-only case folding, used to describe which names [lower] sends to an
    ASCII string. *)
Definition ascii_lower_char (c : ascii) : ascii :=
  let n := N_of_ascii c in
  if ((65 <=? n) && (n <=? 90))%N then ascii_of_N (n + 32) else c.

Fixpoint ascii_lower (s : string) : string :=
  match s with
  | EmptyString => EmptyString
  | String c s' => String (ascii_lower_char c) (ascii_lower s')
  end.

Fixpoint is_ascii (s : string) : bool :=
  match s with
  | EmptyString => true
  | String c s' => (N_of_ascii c <? 128)%N && is_ascii s'
  end.

(** [s.startswith(p)] *)
Definition startswith (s p : string) : bool := String.prefix p s.

(** [sub in s]: [sub] occurs at some offset of [s]. *)
Fixpoint contains (sub s : string) : bool :=
  if String.prefix sub s then true
  else match s with
       | EmptyString => false
       | String _ s' => contains sub s'
       end.

(** The lines of a text written to a stream, cut as [s.splitlines()] cuts
    them at line feeds (the only line boundary [print] writes); used to count
    what was printed. *)
Fixpoint splitlines_aux (cur : string) (s : string) : list string :=
  match s with
  | EmptyString => match cur with EmptyString => [] | _ => [cur] end
  | String c s' =>
      if Ascii.eqb c "010"%char then cur :: splitlines_aux EmptyString s'
      else splitlines_aux (cur ++ String c EmptyString) s'
  end.

Definition splitlines (s : string) : list string := splitlines_aux EmptyString s.

(** [str(n)] for an [int]: decimal digits, a minus sign for negatives. *)
Definition str_int (n : Z) : string := NilZero.string_of_int (Z.to_int n).

End PyStr.

(** ** class CustomHandler *)

Module CustomHandler.
Import PyStr.

(** The base class, [http.server.SimpleHTTPRequestHandler], is library code.
    It is taken as an interface: a type of handler objects and the inherited
    [send_header], which the override reaches through [super()]. *)
Class BaseHandler (H : Type) : Type :=
  { super_send_header : string -> string -> H -> H }.

(** The value the local variable [value] holds when the override reaches the
    [super()] call (lines 9-11 of server.py). *)
Definition send_header_value (keyword value : string) : string :=
  if (lower keyword =? "content-type") && startswith value "text/" then
    if negb (contains "charset=" value) then
      value ++ "; charset=utf-8"
    else value
  else value.

(** [CustomHandler.send_header(self, keyword, value)] *)
Definition send_header {H : Type} `{BaseHandler H}
    (keyword value : string) (self : H) : H :=
  let value := send_header_value keyword value in
  super_send_header keyword value self.

(** A base class that only records the header writes it receives, in order. *)
Definition headers_log : Type := list (string * string).

#[export] Instance recorder : BaseHandler headers_log :=
  { super_send_header keyword value log := (log ++ [(keyword, value)])%list }.

(** A handler object receiving a sequence of [send_header] calls. *)
Fixpoint send_headers {H : Type} `{BaseHandler H}
    (calls : list (string * string)) (self : H) : H :=
  match calls with
  | [] => self
  | (keyword, value) :: rest => send_headers rest (send_header keyword value self)
  end.

End CustomHandler.

(** ** The module body: PORT and the serving loop *)

Module Server.
Import PyStr.

Definition PORT : Z := 8000.

(** What the process has done so far that the outside can see. *)
Record process : Type :=
  { stdout : string;
    listening : option (string * Z) }.

Definition process0 : process := {| stdout := ""; listening := None |}.

(** [print(s)]: the text and a line feed go to standard output. *)
Definition print (s : string) (p : process) : process :=
  {| stdout := stdout p ++ s ++ String "010"%char EmptyString;
     listening := listening p |}.

(** [socketserver.TCPServer(address, handler)] binds and listens; [bind_ok]
    is the operating system's answer.  A refused bind raises [OSError]. *)
Definition TCPServer (address : string * Z) (bind_ok : bool) (p : process)
    : option process :=
  if bind_ok then Some {| stdout := stdout p; listening := Some address |}
  else None.

(** The module body up to the point where control enters
    [httpd.serve_forever()], which does not return by itself.  [None] is the
    uncaught exception of a failed bind. *)
Definition startup (bind_ok : bool) (p : process) : option process :=
  match TCPServer ("", PORT) bind_ok p with
  | Some p => Some (print ("Serving at port " ++ str_int PORT) p)
  | None => None
  end.

End Server.

(** ** The handler object and what a method body can do to it

    A method of [CustomHandler] runs against mutable state: the attributes of
    [self] (the base class keeps its header buffer and connection flags
    there) and the module's globals.  A method body is a program that may
    fetch a variable, assign one, and call the inherited [send_header]. *)

Module HandlerObject.
Import PyStr.

Inductive pyval : Type :=
| PyNone
| PyBool (b : bool)
| PyInt (z : Z)
| PyStr (s : string)
| PyLines (items : list string).

(** [self.name] or a module global [name]. *)
Inductive place : Type :=
| Attr (name : string)
| Global (name : string).

Definition place_eqb (a b : place) : bool :=
  match a, b with
  | Attr x, Attr y => x =? y
  | Global x, Global y => x =? y
  | _, _ => false
  end.

Definition world : Type := place -> option pyval.

Definition assign (pl : place) (v : pyval) (w : world) : world :=
  fun q => if place_eqb q pl then Some v else w q.

Inductive prog (A : Type) : Type :=
| Ret (a : A)
| Fetch (pl : place) (k : option pyval -> prog A)
| Assign (pl : place) (v : pyval) (k : prog A)
| CallSuper (keyword value : string) (k : prog A).

Arguments Ret {A} a.
Arguments Fetch {A} pl k.
Arguments Assign {A} pl v k.
Arguments CallSuper {A} keyword value k.

Fixpoint bind {A B : Type} (p : prog A) (f : A -> prog B) : prog B :=
  match p with
  | Ret a => f a
  | Fetch pl k => Fetch pl (fun v => bind (k v) f)
  | Assign pl v k => Assign pl v (bind k f)
  | CallSuper keyword value k => CallSuper keyword value (bind k f)
  end.

Declare Scope prog_scope.
Delimit Scope prog_scope with prog.
Notation "x <- c ;; k" := (bind c (fun x => k))
  (at level 61, c at next level, right associativity) : prog_scope.
Notation "c ;; k" := (bind c (fun _ => k))
  (at level 61, right associativity) : prog_scope.

(** [super().send_header(keyword, value)] *)
Definition super_call (keyword value : string) : prog unit :=
  CallSuper keyword value (Ret tt).

(** What a run of a method body did, in order. *)
Inductive event : Type :=
| Fetched (pl : place)
| Assigned (pl : place) (v : pyval)
| Called (keyword value : string).

(** Running a body in a world; [super] is the inherited [send_header], which
    may itself update the world. *)
Fixpoint exec {A : Type} (super : string -> string -> world -> world)
    (p : prog A) (w : world) : A * world * list event :=
  match p with
  | Ret a => (a, w, [])
  | Fetch pl k =>
      let '(a, w', t) := exec super (k (w pl)) w in (a, w', Fetched pl :: t)
  | Assign pl v k =>
      let '(a, w', t) := exec super k (assign pl v w) in
      (a, w', Assigned pl v :: t)
  | CallSuper keyword value k =>
      let '(a, w', t) := exec super k (super keyword value w) in
      (a, w', Called keyword value :: t)
  end.

Definition final {A : Type} (r : A * world * list event) : world := snd (fst r).
Definition trace {A : Type} (r : A * world * list event) : list event := snd r.

(** The body of [CustomHandler.send_header], statement by statement: the two
    nested [if]s rebind the local [value], then comes the [super()] call. *)
Definition send_header_body (keyword value : string) : prog unit :=
  (value <- (if (lower keyword =? "content-type") && startswith value "text/"
             then
               if negb (contains "charset=" value)
               then Ret (value ++ "; charset=utf-8")
               else Ret value
             else Ret value) ;;
   super_call keyword value)%prog.

(** The handler receiving header writes one after another. *)
Fixpoint send_headers_body (calls : list (string * string)) : prog unit :=
  match calls with
  | [] => Ret tt
  | (keyword, value) :: rest =>
      (send_header_body keyword value ;; send_headers_body rest)%prog
  end.

End HandlerObject.

(** ** The module body as a script that can raise *)

Module Script.
Import PyStr Server.

Inductive result (A : Type) : Type :=
| Returned (a : A)
| Raised (exc : string).

Arguments Returned {A} a.
Arguments Raised {A} exc.

(** A statement runs in the process and returns or raises; the process it
    leaves behind is kept in both cases. *)
Definition script (A : Type) : Type := process -> result A * process.

Definition and_then {A B : Type} (c : script A) (k : A -> script B) : script B :=
  fun p =>
    match c p with
    | (Returned a, p') => k a p'
    | (Raised exc, p') => (Raised exc, p')
    end.

(** [socketserver.TCPServer(address, CustomHandler)]: a refused bind raises
    [OSError] and leaves the process as it was. *)
Definition TCPServer_new (address : string * Z) (bind_ok : bool) : script unit :=
  fun p =>
    match TCPServer address bind_ok p with
    | Some p' => (Returned tt, p')
    | None => (Raised "OSError", p)
    end.

Definition print_stmt (s : string) : script unit :=
  fun p => (Returned tt, print s p).

(** Lines 17-18 of server.py, in order: the server is built, then the line is
    printed; control then enters [httpd.serve_forever()]. *)
Definition module_body (bind_ok : bool) : script unit :=
  and_then (TCPServer_new ("", PORT) bind_ok)
           (fun _ => print_stmt ("Serving at port " ++ str_int PORT)).

End Script.

(** ** Facts about the string operations *)

Module PyStrFacts.
Import PyStr.

Lemma append_assoc (a b c : string) : (a ++ b) ++ c = a ++ (b ++ c).
Proof.
  induction a as [|x a IH]; simpl; [reflexivity | now rewrite IH].
Qed.

Lemma append_nil_r (a : string) : a ++ "" = a.
Proof.
  induction a as [|x a IH]; simpl; [reflexivity | now rewrite IH].
Qed.

Lemma prefix_iff (p s : string) :
  String.prefix p s = true <-> exists t, s = p ++ t.
Proof.
  revert p; induction s as [|c s IH]; intros [|d p]; simpl.
  - split; [exists ""; reflexivity | reflexivity].
  - split; [discriminate | intros [t Ht]; discriminate].
  - split; [exists (String c s); reflexivity | reflexivity].
  - destruct (ascii_dec d c) as [->|Hne].
    + rewrite IH. split; intros [t Ht]; exists t; congruence.
    + split; [discriminate | intros [t Ht]; congruence].
Qed.

Lemma prefix_append (p t : string) : String.prefix p (p ++ t) = true.
Proof. apply prefix_iff. now exists t. Qed.

Lemma startswith_iff (s p : string) :
  startswith s p = true <-> exists t, s = p ++ t.
Proof. apply prefix_iff. Qed.

Lemma contains_unfold (sub s : string) :
  contains sub s =
  String.prefix sub s
  || match s with EmptyString => false | String _ s' => contains sub s' end.
Proof.
  destruct s as [|c s]; cbn [contains];
    [destruct (String.prefix sub "") | destruct (String.prefix sub (String c s))];
    reflexivity.
Qed.

(** [contains] is the substring relation. *)
Lemma contains_iff (sub s : string) :
  contains sub s = true <-> exists a b, s = a ++ sub ++ b.
Proof.
  induction s as [|c s IH]; rewrite contains_unfold, orb_true_iff.
  - split.
    + intros [Hp|Hf]; [|discriminate].
      apply prefix_iff in Hp as [t Ht]. now exists "", t.
    + intros [a [b Hab]]. left. apply prefix_iff.
      destruct a; [now exists b | discriminate].
  - split.
    + intros [Hp|Hc].
      * apply prefix_iff in Hp as [t Ht]. now exists "", t.
      * apply IH in Hc as [a [b Hab]]. exists (String c a), b.
        simpl. now rewrite Hab.
    + intros [[|x a] [b Hab]].
      * left. apply prefix_iff. now exists b.
      * right. apply IH. exists a, b. simpl in Hab. congruence.
Qed.

Lemma contains_append_r (sub a b : string) :
  contains sub b = true -> contains sub (a ++ b) = true.
Proof.
  rewrite !contains_iff. intros [x [y ->]].
  exists (a ++ x), y. now rewrite append_assoc.
Qed.

Lemma contains_append_l (sub a b : string) :
  contains sub a = true -> contains sub (a ++ b) = true.
Proof.
  rewrite !contains_iff. intros [x [y ->]].
  exists x, (y ++ b). now rewrite !append_assoc.
Qed.

End PyStrFacts.

(** ** [lower] on names that fold to an ASCII string *)

Module LowerFacts.
Import PyStr.

Ltac each_char c :=
  destruct c as [[] [] [] [] [] [] [] []]; vm_compute;
  solve [reflexivity | discriminate | intros; reflexivity | intros; discriminate].

Lemma lower_char_ascii_target (c : ascii) :
  (N_of_ascii (lower_char c) <? 128)%N = true ->
  ascii_lower_char c = lower_char c.
Proof. each_char c. Qed.

Lemma ascii_lower_char_ascii_target (c : ascii) :
  (N_of_ascii (ascii_lower_char c) <? 128)%N = true ->
  lower_char c = ascii_lower_char c.
Proof. each_char c. Qed.

(** Only the ASCII capitals reach an ASCII string through [lower]: the
    accented capitals of the latin-1 range stay outside ASCII. *)
Lemma lower_ascii_target (s t : string) :
  is_ascii t = true -> (lower s = t <-> ascii_lower s = t).
Proof.
  revert t; induction s as [|c s IH]; intros [|d t]; simpl;
    try (intros _; split; (reflexivity || discriminate)).
  intros Ht. apply andb_true_iff in Ht as [Hd Ht].
  split; intros Heq; injection Heq as Hc Hs; subst d.
  - rewrite (lower_char_ascii_target c Hd). f_equal. now apply IH.
  - rewrite (ascii_lower_char_ascii_target c Hd). f_equal. now apply IH.
Qed.

Lemma lower_idempotent (s : string) : lower (lower s) = lower s.
Proof.
  induction s as [|c s IH]; simpl; [reflexivity|].
  rewrite IH. f_equal. each_char c.
Qed.

End LowerFacts.

(** ** The header override *)

Module CustomHandlerSpec.
Import PyStr PyStrFacts CustomHandler.

(** The override is the inherited [send_header] applied to the same name and
    to the value computed from the two arguments. *)
Lemma send_header_delegates {H : Type} `{BaseHandler H}
    (keyword value : string) (self : H) :
  send_header keyword value self
  = super_send_header keyword (send_header_value keyword value) self.
Proof. reflexivity. Qed.

Lemma value_appended (keyword value : string) :
  lower keyword = "content-type" ->
  startswith value "text/" = true ->
  contains "charset=" value = false ->
  send_header_value keyword value = value ++ "; charset=utf-8".
Proof.
  intros Hk Ht Hc. unfold send_header_value.
  now rewrite Hk, Ht, Hc.
Qed.

Lemma value_kept_charset (keyword value : string) :
  contains "charset=" value = true ->
  send_header_value keyword value = value.
Proof.
  intros Hc. unfold send_header_value. rewrite Hc.
  now destruct (_ && _).
Qed.

Lemma value_kept_not_text (keyword value : string) :
  startswith value "text/" = false ->
  send_header_value keyword value = value.
Proof.
  intros Ht. unfold send_header_value.
  now rewrite Ht, andb_false_r.
Qed.

Lemma value_kept_other_name (keyword value : string) :
  lower keyword <> "content-type" ->
  send_header_value keyword value = value.
Proof.
  intros Hk. unfold send_header_value.
  apply String.eqb_neq in Hk. now rewrite Hk.
Qed.

Lemma suffix_has_charset (value : string) :
  contains "charset=" (value ++ "; charset=utf-8") = true.
Proof. now apply contains_append_r. Qed.

(** The two outcomes of the rewrite. *)
Lemma value_cases (keyword value : string) :
  send_header_value keyword value = value
  \/ (lower keyword = "content-type"
      /\ startswith value "text/" = true
      /\ contains "charset=" value = false
      /\ send_header_value keyword value = value ++ "; charset=utf-8").
Proof.
  unfold send_header_value.
  destruct (String.eqb_spec (lower keyword) "content-type") as [Hk|Hk];
    [|now left].
  destruct (startswith value "text/") eqn:Ht; [|now left].
  destruct (contains "charset=" value) eqn:Hc; [now left|].
  right. now simpl.
Qed.

Lemma send_headers_app {H : Type} `{BaseHandler H}
    (calls1 calls2 : list (string * string)) (self : H) :
  send_headers (calls1 ++ calls2)%list self
  = send_headers calls2 (send_headers calls1 self).
Proof.
  revert self; induction calls1 as [|[k v] calls1 IH]; intros self; simpl;
    [reflexivity | apply IH].
Qed.

(** What a recording base class has seen after a sequence of calls: one entry
    per call, each computed from that call's arguments alone. *)
Lemma send_headers_recorded (calls : list (string * string)) (log : headers_log) :
  send_headers calls log
  = (log ++ map (fun kv => (fst kv, send_header_value (fst kv) (snd kv))) calls)%list.
Proof.
  revert log; induction calls as [|[k v] calls IH]; intros log; simpl.
  - now rewrite app_nil_r.
  - rewrite IH. unfold send_header. simpl. now rewrite <- app_assoc.
Qed.

(** The name test sees exactly the spellings of [content-type] that differ
    in the case of ASCII letters. *)
Lemma content_type_name (keyword : string) :
  lower keyword = "content-type" <-> ascii_lower keyword = "content-type".
Proof. now apply LowerFacts.lower_ascii_target. Qed.

Section Delegation.
Context {H : Type} {base : BaseHandler H}.

(** C1: a [Content-Type] header whose value starts with [text/] and has no
    [charset=] in it reaches the base class with [; charset=utf-8] appended
    to the value. *)
Theorem content_type_text_gets_charset (value : string) (self : H) :
  startswith value "text/" = true ->
  contains "charset=" value = false ->
  send_header "Content-Type" value self
  = super_send_header "Content-Type" (value ++ "; charset=utf-8") self.
Proof.
  intros Ht Hc. rewrite send_header_delegates.
  now rewrite (value_appended "Content-Type" value eq_refl Ht Hc).
Qed.

(** C2: a [Content-Type] header whose value already contains [charset=]
    reaches the base class with its value unchanged, whether or not the value
    starts with [text/]. *)
Theorem content_type_with_charset_unchanged (keyword value : string) (self : H) :
  lower keyword = "content-type" ->
  contains "charset=" value = true ->
  send_header keyword value self = super_send_header keyword value self.
Proof.
  intros _ Hc. rewrite send_header_delegates.
  now rewrite (value_kept_charset keyword value Hc).
Qed.

(** C3: a [Content-Type] header whose value does not start with [text/]
    reaches the base class with its value unchanged. *)
Theorem content_type_not_text_unchanged (keyword value : string) (self : H) :
  lower keyword = "content-type" ->
  startswith value "text/" = false ->
  send_header keyword value self = super_send_header keyword value self.
Proof.
  intros _ Ht. rewrite send_header_delegates.
  now rewrite (value_kept_not_text keyword value Ht).
Qed.

(** C4: a header whose name is not [Content-Type] (in any spelling of its
    letters' case) reaches the base class with the same name and the same
    value, whatever the value is. *)
Theorem other_header_unchanged (keyword value : string) (self : H) :
  lower keyword <> "content-type" ->
  send_header keyword value self = super_send_header keyword value self.
Proof.
  intros Hk. rewrite send_header_delegates.
  now rewrite (value_kept_other_name keyword value Hk).
Qed.

(** C5: the name test ignores case: under every name whose lower-case form
    is [content-type], a value starting with [text/] without [charset=] gets
    the suffix, and the value handed on is the one handed on under the
    spelling [Content-Type]. *)
Theorem content_type_any_case (keyword value : string) (self : H) :
  lower keyword = "content-type" ->
  startswith value "text/" = true ->
  contains "charset=" value = false ->
  send_header keyword value self
  = super_send_header keyword (value ++ "; charset=utf-8") self
  /\ send_header_value keyword value = send_header_value "Content-Type" value.
Proof.
  intros Hk Ht Hc. rewrite send_header_delegates.
  rewrite (value_appended keyword value Hk Ht Hc).
  now rewrite (value_appended "Content-Type" value eq_refl Ht Hc).
Qed.

(** C6: the charset test is a case-sensitive substring test: a [text/] value
    under [Content-Type] that contains another spelling of [charset=] (one
    that only lower-casing turns into it, such as [Charset=]) but not
    [charset=] itself still gets the suffix. *)
Theorem mixed_case_charset_still_appended
    (keyword value spelling : string) (self : H) :
  lower keyword = "content-type" ->
  startswith value "text/" = true ->
  lower spelling = "charset=" ->
  (spelling =? "charset=") = false ->
  contains spelling value = true ->
  contains "charset=" value = false ->
  send_header keyword value self
  = super_send_header keyword (value ++ "; charset=utf-8") self.
Proof.
  intros Hk Ht _ _ _ Hc. rewrite send_header_delegates.
  now rewrite (value_appended keyword value Hk Ht Hc).
Qed.

(** C9: the rewrite is idempotent: the value the override hands on, sent
    again under the same name, is handed on as it is. *)
Theorem send_header_value_idempotent (keyword value : string) (self : H) :
  send_header_value keyword (send_header_value keyword value)
  = send_header_value keyword value
  /\ send_header keyword (send_header_value keyword value) self
     = super_send_header keyword (send_header_value keyword value) self.
Proof.
  assert (Hi : send_header_value keyword (send_header_value keyword value)
               = send_header_value keyword value).
  { destruct (value_cases keyword value) as [Hv|(_ & _ & _ & Hv)]; rewrite Hv.
    - exact Hv.
    - apply value_kept_charset, suffix_has_charset. }
  split; [exact Hi|]. rewrite send_header_delegates. now rewrite Hi.
Qed.

End Delegation.

Section ObjectRuns.
Import HandlerObject.
Variable super : string -> string -> world -> world.

Lemma exec_bind {A B : Type} (p : prog A) (f : A -> prog B) (w : world) :
  exec super (bind p f) w
  = let '(a, w1, t1) := exec super p w in
    let '(b, w2, t2) := exec super (f a) w1 in
    (b, w2, (t1 ++ t2)%list).
Proof.
  revert w; induction p as [a|pl k IH|pl v k IH|kw v k IH]; intros w; simpl.
  - now destruct (exec super (f a) w) as [[b w2] t2].
  - rewrite IH. destruct (exec super (k (w pl)) w) as [[a w1] t1].
    now destruct (exec super (f a) w1) as [[b w2] t2].
  - rewrite IH. destruct (exec super k (assign pl v w)) as [[a w1] t1].
    now destruct (exec super (f a) w1) as [[b w2] t2].
  - rewrite IH. destruct (exec super k (super kw v w)) as [[a w1] t1].
    now destruct (exec super (f a) w1) as [[b w2] t2].
Qed.

(** One run of the body: a single event, the [super()] call, made in the
    world as it was received. *)
Lemma exec_send_header_body (keyword value : string) (w : world) :
  exec super (send_header_body keyword value) w
  = (tt, super keyword (send_header_value keyword value) w,
     [Called keyword (send_header_value keyword value)]).
Proof.
  unfold send_header_body, send_header_value.
  destruct (lower keyword =? "content-type"), (startswith value "text/"),
    (contains "charset=" value); reflexivity.
Qed.

(** The body run in a world is the override of [CustomHandler] with that
    world as the handler object. *)
Lemma send_header_body_agrees (keyword value : string) (w : world) :
  final (exec super (send_header_body keyword value) w)
  = @send_header world {| super_send_header := super |} keyword value w.
Proof. now rewrite exec_send_header_body. Qed.

Lemma trace_send_headers_body (calls : list (string * string)) (w : world) :
  trace (exec super (send_headers_body calls) w)
  = map (fun call => Called (fst call) (send_header_value (fst call) (snd call)))
        calls.
Proof.
  revert w; induction calls as [|[k v] calls IH]; intros w; simpl;
    [reflexivity|].
  rewrite exec_bind, exec_send_header_body.
  specialize (IH (super k (send_header_value k v) w)).
  destruct (exec super (send_headers_body calls) _) as [[b w2] t2].
  simpl in *. now rewrite IH.
Qed.

(** C7: the override keeps no state.  Run against a handler object and
    module globals it could fetch and assign, and over any inherited
    [send_header], the body does one thing: it calls [super()] once, in the
    world as received, with the name and the value computed from the two
    arguments; it fetches and assigns nothing.  So two calls with the same
    name and value, after any earlier calls and in any two worlds, make the
    same [super()] call, and a sequence of calls makes the calls its
    arguments fix, one by one. *)
Theorem send_header_stateless (keyword value : string) :
  (forall w : world,
      exec super (send_header_body keyword value) w
      = (tt, super keyword (send_header_value keyword value) w,
         [Called keyword (send_header_value keyword value)]))
  /\ (forall (before1 before2 : list (string * string)) (w1 w2 : world),
        trace (exec super (send_header_body keyword value)
                 (final (exec super (send_headers_body before1) w1)))
        = trace (exec super (send_header_body keyword value)
                   (final (exec super (send_headers_body before2) w2))))
  /\ (forall (before after : list (string * string)) (w : world),
        trace (exec super
                 (send_headers_body (before ++ (keyword, value) :: after)) w)
        = (trace (exec super (send_headers_body before) w)
           ++ Called keyword (send_header_value keyword value)
           :: map (fun call =>
                     Called (fst call) (send_header_value (fst call) (snd call)))
                  after)%list).
Proof.
  split; [apply exec_send_header_body|]. split.
  - intros before1 before2 w1 w2. now rewrite !exec_send_header_body.
  - intros before after w. rewrite !trace_send_headers_body.
    now rewrite map_app.
Qed.

End ObjectRuns.

(** C10: the value handed on is the input value or the input value followed
    by [; charset=utf-8], so the input is a prefix of it; the name is handed
    on as it came. *)
Theorem emitted_value_extends_input (keyword value : string) :
  exists value' : string,
    (forall log : headers_log,
        send_header keyword value log = (log ++ [(keyword, value')])%list)
    /\ (value' = value \/ value' = value ++ "; charset=utf-8")
    /\ startswith value' value = true.
Proof.
  exists (send_header_value keyword value).
  split; [reflexivity|].
  destruct (value_cases keyword value) as [Hv|(_ & _ & _ & Hv)]; rewrite Hv.
  - split; [now left|]. unfold startswith.
    rewrite <- (append_nil_r value) at 2. apply prefix_append.
  - split; [now right|]. apply prefix_append.
Qed.

(** *** Concrete header writes *)

Lemma content_type_text_gets_charset_witness :
  startswith "text/html" "text/" = true
  /\ contains "charset=" "text/html" = false
  /\ send_header "Content-Type" "text/html" ([] : headers_log)
     = [("Content-Type", "text/html; charset=utf-8")].
Proof.
  split; [reflexivity|]. split; [reflexivity|].
  exact (content_type_text_gets_charset "text/html" [] eq_refl eq_refl).
Defined.

Lemma content_type_with_charset_unchanged_witness :
  lower "Content-Type" = "content-type"
  /\ contains "charset=" "text/html; charset=iso-8859-1" = true
  /\ send_header "Content-Type" "text/html; charset=iso-8859-1" ([] : headers_log)
     = [("Content-Type", "text/html; charset=iso-8859-1")].
Proof.
  split; [reflexivity|]. split; [reflexivity|].
  exact (content_type_with_charset_unchanged
           "Content-Type" "text/html; charset=iso-8859-1" [] eq_refl eq_refl).
Defined.

Lemma content_type_not_text_unchanged_witness :
  lower "Content-Type" = "content-type"
  /\ startswith "application/json" "text/" = false
  /\ send_header "Content-Type" "application/json" ([] : headers_log)
     = [("Content-Type", "application/json")].
Proof.
  split; [reflexivity|]. split; [reflexivity|].
  exact (content_type_not_text_unchanged
           "Content-Type" "application/json" [] eq_refl eq_refl).
Defined.

Lemma other_header_unchanged_witness :
  (lower "Content-Disposition" =? "content-type") = false
  /\ send_header "Content-Disposition" "text/plain" ([] : headers_log)
     = [("Content-Disposition", "text/plain")].
Proof.
  split; [reflexivity|].
  exact (other_header_unchanged "Content-Disposition" "text/plain" []
           (proj1 (String.eqb_neq (lower "Content-Disposition") "content-type")
                  eq_refl)).
Defined.

Lemma content_type_any_case_witness :
  lower "CONTENT-TYPE" = "content-type"
  /\ startswith "text/css" "text/" = true
  /\ contains "charset=" "text/css" = false
  /\ send_header "CONTENT-TYPE" "text/css" ([] : headers_log)
     = [("CONTENT-TYPE", "text/css; charset=utf-8")].
Proof.
  split; [reflexivity|]. split; [reflexivity|]. split; [reflexivity|].
  exact (proj1 (content_type_any_case "CONTENT-TYPE" "text/css" []
                  eq_refl eq_refl eq_refl)).
Defined.

Lemma mixed_case_charset_still_appended_witness :
  lower "Content-Type" = "content-type"
  /\ startswith "text/html; Charset=utf-8" "text/" = true
  /\ lower "Charset=" = "charset="
  /\ ("Charset=" =? "charset=") = false
  /\ contains "Charset=" "text/html; Charset=utf-8" = true
  /\ contains "charset=" "text/html; Charset=utf-8" = false
  /\ send_header "Content-Type" "text/html; Charset=utf-8" ([] : headers_log)
     = [("Content-Type", "text/html; Charset=utf-8; charset=utf-8")].
Proof.
  repeat (split; [reflexivity|]).
  exact (mixed_case_charset_still_appended
           "Content-Type" "text/html; Charset=utf-8" "Charset=" []
           eq_refl eq_refl eq_refl eq_refl eq_refl eq_refl).
Defined.

(** The examples the specification names. *)
Example spellings_of_content_type :
  map (fun k => send_header k "text/plain" ([] : headers_log))
      ["content-type"; "CONTENT-TYPE"; "Content-type"]
  = [[("content-type", "text/plain; charset=utf-8")];
     [("CONTENT-TYPE", "text/plain; charset=utf-8")];
     [("Content-type", "text/plain; charset=utf-8")]].
Proof. reflexivity. Qed.

Example non_text_types :
  send_headers
    [("Content-Type", "application/json"); ("Content-Type", "image/png")]
    ([] : headers_log)
  = [("Content-Type", "application/json"); ("Content-Type", "image/png")].
Proof. reflexivity. Qed.

End CustomHandlerSpec.

(** ** The module body *)

Module ServerSpec.
Import PyStr PyStrFacts Server.

(** A refused bind ends the script before anything is printed. *)
Lemma startup_bind_refused (p : process) : startup false p = None.
Proof. reflexivity. Qed.

(** C8: [PORT] is 8000, and the script, once its socket is bound, has written
    one line to standard output: [Serving at port 8000], the text
    [Serving at port ] followed by the port in decimal. *)
Theorem startup_prints_port :
  PORT = 8000%Z
  /\ "Serving at port " ++ str_int PORT = "Serving at port 8000"
  /\ (forall p0 : process,
        exists p : process,
          startup true p0 = Some p
          /\ stdout p
             = stdout p0 ++ "Serving at port 8000" ++ String "010"%char "")
  /\ option_map (fun p => splitlines (stdout p)) (startup true process0)
     = Some ["Serving at port 8000"].
Proof.
  split; [reflexivity|]. split; [reflexivity|]. split; [|reflexivity].
  intros p0. eexists. split; reflexivity.
Qed.

End ServerSpec.

(** ** Further properties of the header override *)

Module CustomHandlerProps.
Import PyStr PyStrFacts CustomHandler CustomHandlerSpec.

Lemma append_fixed (a s : string) : a ++ s = a -> s = "".
Proof.
  induction a as [|x a IH]; simpl; intros Heq; [exact Heq|].
  injection Heq as Heq. now apply IH.
Qed.

Lemma is_ascii_append (a b : string) :
  is_ascii (a ++ b) = is_ascii a && is_ascii b.
Proof.
  induction a as [|x a IH]; simpl; [reflexivity|].
  now rewrite IH, andb_assoc.
Qed.

(** A one-character needle is found in a concatenation exactly when it is
    found in one of the two parts. *)
Lemma contains_char_append (c : ascii) (a b : string) :
  contains (String c "") (a ++ b)
  = contains (String c "") a || contains (String c "") b.
Proof.
  induction a as [|x a IH].
  - reflexivity.
  - change (String x a ++ b) with (String x (a ++ b)).
    rewrite (contains_unfold _ (String x (a ++ b))).
    rewrite (contains_unfold _ (String x a)).
    rewrite IH. simpl.
    destruct (ascii_dec c x); [|reflexivity].
    now destruct (a ++ b), a.
Qed.

(** An occurrence of [charset=] that begins inside [w] and is found in [w]
    followed by the suffix lies inside [w]: the suffix starts with [;], which
    is no character of [charset=]. *)
Lemma charset_prefix_not_straddling (w : string) :
  String.prefix "charset=" (w ++ "; charset=utf-8") = true ->
  String.prefix "charset=" w = true.
Proof.
  intros Hp. apply prefix_iff in Hp as [t Ht]. apply prefix_iff.
  destruct w as [|c1 [|c2 [|c3 [|c4 [|c5 [|c6 [|c7 [|c8 w]]]]]]]];
    simpl in Ht; try discriminate Ht.
  injection Ht as -> -> -> -> -> -> -> -> Ht. now exists w.
Qed.

Lemma charset_not_in_tail : contains "charset=" "harset=utf-8" = false.
Proof. reflexivity. Qed.

(** The only place [charset=] occurs in a value without it, followed by the
    suffix, is inside the suffix. *)
Lemma charset_occurs_once (v a b : string) :
  contains "charset=" v = false ->
  v ++ "; charset=utf-8" = a ++ "charset=" ++ b ->
  a = v ++ "; " /\ b = "utf-8".
Proof.
  revert a; induction v as [|x v IH]; intros a Hc Heq.
  - destruct a as [|a1 [|a2 [|a3 a]]]; simpl in Heq; try discriminate.
    + injection Heq as H1 H2 Hb. subst a1 a2 b. split; reflexivity.
    + exfalso. injection Heq as _ _ _ Hrest.
      assert (Hin : contains "charset=" "harset=utf-8" = true).
      { apply contains_iff. now exists a, b. }
      rewrite charset_not_in_tail in Hin. discriminate.
  - rewrite contains_unfold in Hc. apply orb_false_iff in Hc as [Hp Hc].
    destruct a as [|y a].
    + exfalso.
      assert (Hq : String.prefix "charset=" (String x v ++ "; charset=utf-8")
                   = true).
      { rewrite Heq. exact (prefix_append "charset=" b). }
      apply charset_prefix_not_straddling in Hq. congruence.
    + simpl in Heq. injection Heq as -> Heq.
      destruct (IH a Hc Heq) as [-> ->]. split; reflexivity.
Qed.

Lemma text_value_has_charset (keyword value : string) :
  lower keyword = "content-type" ->
  startswith (send_header_value keyword value) "text/" = true ->
  contains "charset=" (send_header_value keyword value) = true.
Proof.
  intros Hk. unfold send_header_value. rewrite Hk. simpl.
  destruct (startswith value "text/") eqn:Ht; [|congruence].
  destruct (contains "charset=" value) eqn:Hc; simpl; intros _;
    [exact Hc | apply suffix_has_charset].
Qed.

(** X1: whatever calls the handler receives, every header the base class is
    given under a name that lower-cases to [content-type] with a value that
    starts with [text/] carries [charset=]. *)
Theorem recorded_text_types_have_charset (calls : list (string * string)) :
  Forall (fun entry : string * string =>
            lower (fst entry) = "content-type" ->
            startswith (snd entry) "text/" = true ->
            contains "charset=" (snd entry) = true)
         (send_headers calls ([] : headers_log)).
Proof.
  rewrite send_headers_recorded. simpl.
  apply Forall_forall. intros entry Hin.
  apply in_map_iff in Hin as [[k v] [<- _]]. simpl.
  apply text_value_has_charset.
Qed.

Lemma value_changed (keyword value : string) :
  lower keyword = "content-type" ->
  startswith value "text/" = true ->
  contains "charset=" value = false ->
  send_header_value keyword value <> value.
Proof.
  intros Hk Ht Hc Heq.
  rewrite (value_appended keyword value Hk Ht Hc) in Heq.
  apply append_fixed in Heq. discriminate.
Qed.

Lemma value_changed_only (keyword value : string) :
  send_header_value keyword value <> value ->
  lower keyword = "content-type"
  /\ startswith value "text/" = true
  /\ contains "charset=" value = false.
Proof.
  intros Hne.
  destruct (value_cases keyword value) as [Hv|(Hk & Ht & Hc & _)];
    [contradiction | now repeat split].
Qed.

(** X2: the value handed on differs from the value received exactly when the
    name lower-cases to [content-type], the value starts with [text/] and
    holds no [charset=]. *)
Theorem value_changed_iff (keyword value : string) :
  send_header_value keyword value <> value
  <-> (lower keyword = "content-type"
       /\ startswith value "text/" = true
       /\ contains "charset=" value = false).
Proof.
  split; [apply value_changed_only|].
  intros (Hk & Ht & Hc). now apply value_changed.
Qed.

(** X3: the names under which some value is rewritten are the spellings of
    [content-type] in upper- and lower-case ASCII letters, and no others: an
    accented or otherwise non-ASCII character never matches. *)
Theorem rewritten_names (keyword : string) :
  (exists value : string, send_header_value keyword value <> value)
  <-> ascii_lower keyword = "content-type".
Proof.
  rewrite <- content_type_name. split.
  - intros [value Hne]. now apply value_changed_only in Hne as [Hk _].
  - intros Hk. exists "text/". now apply value_changed.
Qed.

(** X4: the override neither drops, adds nor reorders header writes: the
    base class receives one write per call, in call order, each under the
    name of its call and with a value that is the call's value or that value
    with the suffix. *)
Theorem writes_follow_calls (calls : list (string * string)) (log : headers_log) :
  map fst (send_headers calls log) = (map fst log ++ map fst calls)%list
  /\ List.length (send_headers calls log)
     = (List.length log + List.length calls)%nat
  /\ Forall2 (fun call entry : string * string =>
                fst entry = fst call
                /\ (snd entry = snd call
                    \/ snd entry = snd call ++ "; charset=utf-8"))
             calls (send_headers calls ([] : headers_log)).
Proof.
  rewrite !send_headers_recorded. split; [|split].
  - rewrite map_app, map_map. simpl. reflexivity.
  - now rewrite length_app, length_map.
  - simpl. induction calls as [|[k v] calls IH]; simpl; constructor;
      [|exact IH].
    split; [reflexivity|]. simpl.
    destruct (value_cases k v) as [Hv|(_ & _ & _ & Hv)]; rewrite Hv; auto.
Qed.

(** X5: in a rewritten value [charset=] occurs once, and what follows it is
    [utf-8]: however the value handed on is cut around an occurrence of
    [charset=], the part before is the received value with [; ] and the part
    after is [utf-8]. *)
Theorem appended_charset_is_the_only_one (keyword value a b : string) :
  lower keyword = "content-type" ->
  startswith value "text/" = true ->
  contains "charset=" value = false ->
  send_header_value keyword value = a ++ "charset=" ++ b ->
  a = value ++ "; " /\ b = "utf-8".
Proof.
  intros Hk Ht Hc Heq.
  rewrite (value_appended keyword value Hk Ht Hc) in Heq.
  now apply charset_occurs_once.
Qed.

(** X6: the override keeps a value inside ASCII: the value handed on is
    ASCII exactly when the value received is. *)
Theorem ascii_values_stay_ascii (keyword value : string) :
  is_ascii (send_header_value keyword value) = is_ascii value.
Proof.
  destruct (value_cases keyword value) as [Hv|(_ & _ & _ & Hv)]; rewrite Hv;
    [reflexivity|].
  rewrite is_ascii_append. simpl. apply andb_true_r.
Qed.

(** X7: the override brings no line break into a header: the value handed on
    holds a carriage return, or a line feed, exactly when the value received
    does. *)
Theorem no_line_break_added (keyword value : string) :
  contains (String "013"%char "") (send_header_value keyword value)
  = contains (String "013"%char "") value
  /\ contains (String "010"%char "") (send_header_value keyword value)
     = contains (String "010"%char "") value.
Proof.
  destruct (value_cases keyword value) as [Hv|(_ & _ & _ & Hv)]; rewrite Hv;
    [split; reflexivity|].
  rewrite !contains_char_append. split; apply orb_false_r.
Qed.

Lemma appended_charset_is_the_only_one_witness :
  lower "Content-Type" = "content-type"
  /\ startswith "text/html" "text/" = true
  /\ contains "charset=" "text/html" = false
  /\ send_header_value "Content-Type" "text/html"
     = "text/html; " ++ "charset=" ++ "utf-8"
  /\ "text/html; " = "text/html" ++ "; " /\ "utf-8" = "utf-8".
Proof.
  do 4 (split; [reflexivity|]).
  exact (appended_charset_is_the_only_one
           "Content-Type" "text/html" "text/html; " "utf-8"
           eq_refl eq_refl eq_refl eq_refl).
Defined.

End CustomHandlerProps.

(** ** Further properties of the module body *)

Module ServerProps.
Import PyStr PyStrFacts Server Script.

(** [startup] is [module_body] with the process of a raised run dropped. *)
Lemma startup_of_module_body (bind_ok : bool) (p0 : process) :
  startup bind_ok p0
  = match module_body bind_ok p0 with
    | (Returned _, p) => Some p
    | (Raised _, _) => None
    end.
Proof. now destruct bind_ok. Qed.


End ServerProps.
